(** * News agent: fetch, filter by article type, summarise

    A shallow embedding of [main.py].  Python [str] values are sequences of
    Unicode code points; what the script takes from outside (the NewsAPI
    HTTP endpoint, the BART summarisation pipeline, the process environment
    and the Unicode case tables) are fields of a [Runtime] record, and every
    observable action of the script ([print], [requests.get], a [summarizer]
    call) is an [Event] appended to a trace. *)

From Stdlib Require Import Floats Uint63.
From Stdlib Require Import List ZArith NArith Bool Lia String Ascii.
From Stdlib Require Import Numbers.DecimalString.
Import ListNotations.

Local Open Scope Z_scope.

(** ** Python strings *)

(** A [str] is a list of code points. *)
Definition pystr := list N.

Module Str.

(** Literals of the source are written as Rocq strings; the bytes of the
    literal are decoded from UTF-8 (one to four bytes per code point). *)
Fixpoint bytes (s : string) : list N :=
  match s with
  | EmptyString => []
  | String c s' => N_of_ascii c :: bytes s'
  end.

Fixpoint utf8 (bs : list N) : pystr :=
  match bs with
  | [] => []
  | b0 :: r0 =>
      if (b0 <? 128)%N then b0 :: utf8 r0
      else if (b0 <? 224)%N then
        match r0 with
        | b1 :: r1 => ((b0 - 192) * 64 + (b1 - 128))%N :: utf8 r1
        | _ => []
        end
      else if (b0 <? 240)%N then
        match r0 with
        | b1 :: b2 :: r2 =>
            ((b0 - 224) * 4096 + (b1 - 128) * 64 + (b2 - 128))%N :: utf8 r2
        | _ => []
        end
      else
        match r0 with
        | b1 :: b2 :: b3 :: r3 =>
            ((b0 - 240) * 262144 + (b1 - 128) * 4096
             + (b2 - 128) * 64 + (b3 - 128))%N :: utf8 r3
        | _ => []
        end
  end.

Definition lit (s : string) : pystr := utf8 (bytes s).

(** [a == b] on two strings. *)
Fixpoint eqb (a b : pystr) : bool :=
  match a, b with
  | [], [] => true
  | x :: a', y :: b' => (x =? y)%N && eqb a' b'
  | _, _ => false
  end.

(** [s.startswith(p)] and [p in s]. *)
Fixpoint startswith (p s : pystr) : bool :=
  match p, s with
  | [], _ => true
  | _ :: _, [] => false
  | x :: p', y :: s' => (x =? y)%N && startswith p' s'
  end.

Fixpoint contains (needle hay : pystr) : bool :=
  startswith needle hay
  || match hay with
     | [] => false
     | _ :: hay' => contains needle hay'
     end.

(** [c.isspace()]: the code points CPython's [str.split()] separates on. *)
Definition isspace (c : N) : bool :=
  ((9 <=? c) && (c <=? 13)
   || (28 <=? c) && (c <=? 32)
   || (c =? 133) || (c =? 160) || (c =? 5760)
   || (8192 <=? c) && (c <=? 8202)
   || (c =? 8232) || (c =? 8233) || (c =? 8239)
   || (c =? 8287) || (c =? 12288))%N.

(** [s.split()]: maximal runs of non-space code points, in order.  [cur]
    is the word being read, most recent code point first. *)
Fixpoint split_from (cur : pystr) (s : pystr) : list pystr :=
  match s with
  | [] => match cur with [] => [] | _ => [rev cur] end
  | c :: s' =>
      if isspace c then
        match cur with
        | [] => split_from [] s'
        | _ => rev cur :: split_from [] s'
        end
      else split_from (c :: cur) s'
  end.

Definition split (s : pystr) : list pystr := split_from [] s.

(** [s.lower()] on a string of ASCII code points. *)
Definition ascii_lower (c : N) : N :=
  if ((65 <=? c) && (c <=? 90))%N then (c + 32)%N else c.

Definition isascii (s : pystr) : bool := forallb (fun c => (c <? 128)%N) s.

(** [str(n)] for an [int]. *)
Definition of_Z (n : Z) : pystr := lit (NilZero.string_of_int (Z.to_int n)).

(** [bool(s)] for a value that is [None] or a [str]. *)
Definition truthy (o : option pystr) : bool :=
  match o with
  | Some (_ :: _) => true
  | _ => false
  end.

(** [o or ""]. *)
Definition or_empty (o : option pystr) : pystr :=
  match o with
  | Some s => s
  | None => []
  end.

End Str.

Notation "'u' s" := (Str.lit s%string) (at level 1, s at level 0, only parsing).

(** ** Data model *)

(** An article as the rest of the script uses it: the title is lower-cased
    and formatted without a check, the description is tested for [None]
    before every use.  The title and the url are strings here; an article
    whose title or url is [None] is an article of [Nullable] below. *)
Record Article := mkArticle {
  title : pystr;
  description : option pystr;
  url : pystr
}.

(** A field of a JSON object of the provider: the key may be missing, hold
    [null], or hold a string. *)
Inductive jfield :=
| Missing
| Null
| JStr (s : pystr).

(** One element of the [articles] array of an answer in which no title and
    no url is [null]: the title and the url are strings when present, the
    description may be [null].  Answers that hold a [null] title or url are
    those of [Nullable.RawArticle]. *)
Record RawArticle := mkRaw {
  raw_title : option pystr;
  raw_description : jfield;
  raw_url : option pystr
}.

(** A value of the [params] dictionary. *)
Inductive pyval :=
| VStr (s : pystr)
| VInt (n : Z).

(** The arguments of [requests.get]; a dictionary is the list of its items
    in insertion order. *)
Record Request := mkRequest {
  req_url : pystr;
  req_headers : list (pystr * pystr);
  req_params : list (pystr * pyval)
}.

(** What the script reads from the answer: the status, the raw body, and the
    [articles] key of the decoded body ([None] when the key is missing). *)
Record Response := mkResponse {
  status_code : Z;
  text : pystr;
  json_articles : option (list RawArticle)
}.

(** The [argparse] namespace, restricted to the attributes [run_agent]
    reads. *)
Record Args := mkArgs {
  topic : pystr;
  language : pystr;
  max_results : Z;
  source : pystr;
  article_type : pystr;
  lista : option pystr
}.

(** ** Outside world *)

(** The module-level globals and library calls of the script. *)
Record Runtime := mkRuntime {
  (** [os.getenv("NEWSAPI_KEY")], read once when the module is loaded *)
  NEWSAPI_KEY : option pystr;
  (** [requests.get(url, headers=..., params=...)] *)
  requests_get : Request -> Response;
  (** [summarizer(text, max_length=.., min_length=.., do_sample=False)
      [0]['summary_text']]: text, then max_length, then min_length *)
  summarizer : pystr -> Z -> Z -> pystr;
  (** [str.lower] on a string that holds a code point above 127 (Unicode
      case tables of the interpreter) *)
  unicode_lower : pystr -> pystr
}.

(** Observable actions, in program order. *)
Inductive Event :=
| Print (line : pystr)
| Get (r : Request)
| Summarize (text : pystr) (max_length min_length : Z).

(** A computation returns a value and the events it performed. *)
Definition IO (A : Type) : Type := (A * list Event)%type.

Definition ret {A} (a : A) : IO A := (a, []).

Definition bind {A B} (m : IO A) (k : A -> IO B) : IO B :=
  let '(a, e1) := m in
  let '(b, e2) := k a in
  (b, e1 ++ e2).

Notation "x <- m ;; k" := (bind m (fun x => k))
  (at level 61, m at next level, right associativity).
Notation "m ;; k" := (bind m (fun _ => k))
  (at level 61, right associativity).

Definition print (line : pystr) : IO unit := (tt, [Print line]).

Definition get (rt : Runtime) (r : Request) : IO Response :=
  (requests_get rt r, [Get r]).

Definition value {A} (m : IO A) : A := fst m.
Definition trace {A} (m : IO A) : list Event := snd m.

(** Projections of a trace. *)
Definition printed (tr : list Event) : list pystr :=
  flat_map (fun e => match e with Print l => [l] | _ => [] end) tr.

Definition requests (tr : list Event) : list Request :=
  flat_map (fun e => match e with Get r => [r] | _ => [] end) tr.

Definition inferences (tr : list Event) : list (pystr * Z * Z) :=
  flat_map (fun e => match e with
                     | Summarize t mx mn => [(t, mx, mn)]
                     | _ => []
                     end) tr.

(** [s.lower()]. *)
Definition lower (rt : Runtime) (s : pystr) : pystr :=
  if Str.isascii s then map Str.ascii_lower s else unicode_lower rt s.

(** ** 4. dynamic_summarize *)

(** [int(word_count * 0.8)] for a word count [n >= 0].  The product is a
    binary64 number; its integer part is that of the exact product 8n/10,
    which is what is computed here, as long as [n] is far below 2^53 (the
    double 0.8 exceeds 4/5 by 2^-54 relative, less than half a unit in the
    last place of any 4n/5).  [int_mul_0_8_binary64] checks the agreement
    on a range of word counts by running the binary64 product. *)
Definition int_mul_0_8 (n : Z) : Z := Z.quot (8 * n) 10.

(** The same conversion computed on binary64 numbers, for a word count
    below 2^63: [float(n) * 0.8], where the literal [0.8] is the double
    [0x1.999999999999ap-1], then [int(..)], which truncates. *)
Definition int_of_float (f : PrimFloat.float) : Z :=
  match FloatOps.Prim2SF f with
  | SpecFloat.S754_finite s m e =>
      let a := if 0 <=? e then Z.shiftl (Z.pos m) e
               else Z.shiftr (Z.pos m) (- e) in
      if s then - a else a
  | _ => 0
  end.

Definition binary64_int_mul_0_8 (n : Z) : Z :=
  int_of_float
    (PrimFloat.mul (PrimFloat.of_uint63 (Uint63.of_Z n))
       0x1.999999999999ap-1%float).

Definition dynamic_summarize (rt : Runtime) (text : pystr)
    (min_len max_len : Z) : IO pystr :=
  let word_count := Z.of_nat (List.length (Str.split text)) in
  let estimated_max_len := Z.min max_len (int_mul_0_8 word_count) in
  let estimated_max_len :=
    if estimated_max_len <? min_len then min_len + 5 else estimated_max_len in
  (summarizer rt text estimated_max_len min_len,
   [Summarize text estimated_max_len min_len]).

(** ** 5. Fetching *)

Definition missing_key_msg : pystr :=
  u"No se encontró NEWSAPI_KEY en .env. No se pueden obtener noticias de NewsAPI.".

Definition endpoint : pystr := u"https://newsapi.org/v2/everything".

(** [{"Authorization": f"Bearer {NEWSAPI_KEY}"}]; built only after the key
    has been found to be a non-empty string. *)
Definition auth_headers (key : option pystr) : list (pystr * pystr) :=
  [(u"Authorization", u"Bearer " ++ Str.or_empty key)].

(** [art.get(k, "")]: the value of the key, the empty string when the key
    is missing, [None] when the key holds [null].  [get_str] is the call on
    the title and the url of a [RawArticle], where [null] does not occur;
    [get_nullable] is the call in general. *)
Definition get_str (f : option pystr) : pystr :=
  match f with
  | Some s => s
  | None => []
  end.

Definition get_nullable (f : jfield) : option pystr :=
  match f with
  | Missing => Some []
  | Null => None
  | JStr s => Some s
  end.

(** The dictionary built by lines 79 to 83 from an element without a
    [null] title or url; [Nullable.normalise] is the same on every
    element. *)
Definition normalise (art : RawArticle) : Article :=
  {| title := get_str (raw_title art);
     description := get_nullable (raw_description art);
     url := get_str (raw_url art) |}.

(** The loop [for art in articles: results.append({...})]. *)
Definition collect (articles : list RawArticle) : list Article :=
  fold_left (fun results art => results ++ [normalise art]) articles [].

(** [data.get("articles", [])]. *)
Definition articles_of (resp : Response) : list RawArticle :=
  match json_articles resp with
  | Some l => l
  | None => []
  end.

Definition fetch_from_newsapi (rt : Runtime) (topic language : pystr)
    (page_size : Z) : IO (list Article) :=
  if negb (Str.truthy (NEWSAPI_KEY rt)) then
    print missing_key_msg ;; ret []
  else
    let params := [(u"q", VStr topic);
                   (u"language", VStr language);
                   (u"pageSize", VInt page_size);
                   (u"sortBy", VStr u"publishedAt")] in
    let headers := auth_headers (NEWSAPI_KEY rt) in
    resp <- get rt (mkRequest endpoint headers params) ;;
    if negb (status_code resp =? 200) then
      print (u"Error al obtener noticias de NewsAPI:" ++ u" " ++ text resp) ;;
      ret []
    else
      ret (collect (articles_of resp)).

Definition default_domains : pystr :=
  u"bbc.co.uk,washingtonpost.com,lemonde.fr,elpais.com,elmundo.es,europapress.es".

Definition fetch_from_lista (rt : Runtime) (topic language : pystr)
    (page_size : Z) (domain_string : option pystr) : IO (list Article) :=
  if negb (Str.truthy (NEWSAPI_KEY rt)) then
    print missing_key_msg ;; ret []
  else
    let domain_string :=
      if negb (Str.truthy domain_string) then default_domains
      else Str.or_empty domain_string in
    let params := [(u"q", VStr topic);
                   (u"language", VStr language);
                   (u"pageSize", VInt page_size);
                   (u"sortBy", VStr u"publishedAt");
                   (u"domains", VStr domain_string)] in
    let headers := auth_headers (NEWSAPI_KEY rt) in
    resp <- get rt (mkRequest endpoint headers params) ;;
    if negb (status_code resp =? 200) then
      print (u"Error al obtener noticias de la 'lista' de periódicos:"
             ++ u" " ++ text resp) ;;
      ret []
    else
      ret (collect (articles_of resp)).

Definition fetch_news (rt : Runtime) (topic language : pystr)
    (page_size : Z) (source : pystr) (domain_string : option pystr)
    : IO (list Article) :=
  if Str.eqb source u"newsapi" then
    fetch_from_newsapi rt topic language page_size
  else if Str.eqb source u"lista" then
    fetch_from_lista rt topic language page_size domain_string
  else
    print (u"Fuente desconocida '" ++ source
           ++ u"'. Usa 'newsapi' o 'lista'.") ;;
    ret [].

(** ** 6. Filtering by article type *)

(** [art["description"].lower() if art["description"] else ""]. *)
Definition desc_lower_of (rt : Runtime) (art : Article) : pystr :=
  if Str.truthy (description art) then lower rt (Str.or_empty (description art))
  else [].

(** The body of the loop: [filtered] after [art] has been looked at. *)
Definition filter_step (rt : Runtime) (article_type : pystr)
    (filtered : list Article) (art : Article) : list Article :=
  let title_lower := lower rt (title art) in
  let desc_lower := desc_lower_of rt art in
  if Str.eqb article_type u"divulgacion" then
    if Str.contains u"divulgación" title_lower
       || Str.contains u"divulgación" desc_lower
    then filtered ++ [art] else filtered
  else if Str.eqb article_type u"paper" then
    if Str.contains u"paper" title_lower
       || Str.contains u"study" title_lower
       || Str.contains u"investigación" title_lower
       || Str.contains u"paper" desc_lower
       || Str.contains u"study" desc_lower
       || Str.contains u"investigación" desc_lower
    then filtered ++ [art] else filtered
  else if Str.eqb article_type u"opinion" then
    if Str.contains u"opinión" title_lower
       || Str.contains u"column" title_lower
       || Str.contains u"op-ed" title_lower
       || Str.contains u"opinión" desc_lower
       || Str.contains u"column" desc_lower
       || Str.contains u"op-ed" desc_lower
    then filtered ++ [art] else filtered
  else if Str.eqb article_type u"agency" then
    if Str.contains u"agencia" title_lower
       || Str.contains u"reuters" title_lower
       || Str.contains u"associated press" title_lower
       || Str.contains u"ap " title_lower
       || Str.contains u"afp" title_lower
       || Str.contains u"agencia" desc_lower
       || Str.contains u"reuters" desc_lower
       || Str.contains u"ap " desc_lower
       || Str.contains u"afp" desc_lower
    then filtered ++ [art] else filtered
  else filtered.

Definition filter_by_article_type (rt : Runtime) (articles : list Article)
    (article_type : pystr) : list Article :=
  if Str.eqb article_type u"all" || Str.eqb article_type u"any" then articles
  else fold_left (filter_step rt article_type) articles [].

(** ** 7. run_agent *)

Definition no_news_msg : pystr := u"No se encontraron noticias tras el filtro.".

Definition banner : pystr := u"===== RESUMEN DE NOTICIAS =====".

Definition newline : pystr := [10%N].

(** [f"{title}. {desc}"] with [desc = art["description"] or ""]. *)
Definition text_to_summarize (art : Article) : pystr :=
  title art ++ u". " ++ Str.or_empty (description art).

(** The formatted block of article number [i]. *)
Definition block (i : Z) (art : Article) (summary_text : pystr) : pystr :=
  Str.of_Z i ++ u". Título: " ++ title art ++ newline
  ++ u"   URL: " ++ url art ++ newline
  ++ u"   Resumen: " ++ summary_text ++ newline.

(** [for i, art in enumerate(filtered, 1): ... final_summaries.append(...)],
    entered at index [i] with the blocks built so far. *)
Fixpoint summarize_from (rt : Runtime) (i : Z) (filtered : list Article)
    (final_summaries : list pystr) : IO (list pystr) :=
  match filtered with
  | [] => ret final_summaries
  | art :: rest =>
      summary_text <- dynamic_summarize rt (text_to_summarize art) 100 450 ;;
      summarize_from rt (i + 1) rest
        (final_summaries ++ [block i art summary_text])
  end.

(** [for summary in final_summaries: print(summary)]. *)
Fixpoint print_each (final_summaries : list pystr) : IO unit :=
  match final_summaries with
  | [] => ret tt
  | summary :: rest => print summary ;; print_each rest
  end.

Definition header1 (args : Args) : pystr :=
  newline ++ u"Buscando noticias sobre '" ++ topic args
  ++ u"' en idioma '" ++ language args ++ u"'...".

Definition header2 (args : Args) : pystr :=
  u"Fuente: " ++ source args ++ u" | Máx resultados: "
  ++ Str.of_Z (max_results args) ++ u" | Tipo artículo: " ++ article_type args.

Definition run_agent (rt : Runtime) (args : Args) : IO unit :=
  print (header1 args) ;;
  print (header2 args) ;;
  articles <- fetch_news rt (topic args) (language args) (max_results args)
                (source args) (lista args) ;;
  let filtered := filter_by_article_type rt articles (article_type args) in
  match filtered with
  | [] => print no_news_msg
  | _ :: _ =>
      final_summaries <- summarize_from rt 1 filtered [] ;;
      print banner ;;
      print_each final_summaries
  end.

(** ** Derived notions used by the statements *)

(** The articles [run_agent] fetches and the ones it hands, one by one, to
    [dynamic_summarize]. *)
Definition fetched (rt : Runtime) (args : Args) : list Article :=
  value (fetch_news rt (topic args) (language args) (max_results args)
           (source args) (lista args)).

Definition summarized (rt : Runtime) (args : Args) : list Article :=
  filter_by_article_type rt (fetched rt args) (article_type args).

(** The decision the filter takes on one article: the whole list is
    returned for "all" and "any", otherwise the loop body appends or not. *)
Definition kept (rt : Runtime) (article_type : pystr) (art : Article) : bool :=
  Str.eqb article_type u"all" || Str.eqb article_type u"any"
  || match filter_step rt article_type [] art with
     | [] => false
     | _ :: _ => true
     end.

(** [sep.join(parts)]. *)
Fixpoint join (sep : pystr) (parts : list pystr) : pystr :=
  match parts with
  | [] => []
  | [p] => p
  | p :: rest => p ++ sep ++ join sep rest
  end.

(** The budget of the summary, as section 4.3 of the specification words
    it, for the defaults [min_len = 100] and [max_len = 450]. *)
Definition spec_max_length (word_count : Z) : Z :=
  let m := Z.min 450 ((8 * word_count) / 10) in
  if 100 <=? m then m else 100 + 5.

(** The inference call made for one article, and the summary it yields. *)
Definition inference_of (rt : Runtime) (art : Article) : list Event :=
  trace (dynamic_summarize rt (text_to_summarize art) 100 450).

Definition summary_of (rt : Runtime) (art : Article) : pystr :=
  value (dynamic_summarize rt (text_to_summarize art) 100 450).

(** The blocks of the articles of a list, numbered from [i] on. *)
Fixpoint numbered (rt : Runtime) (i : Z) (arts : list Article) : list pystr :=
  match arts with
  | [] => []
  | art :: rest => block i art (summary_of rt art) :: numbered rt (i + 1) rest
  end.

(** The decision for the category NEWS_AGENCY as section 4.2 of the
    specification words it: some keyword of the set occurs in the lower-cased
    title or in the lower-cased description, an absent description being the
    empty string. *)
Definition agency_keywords : list pystr :=
  [u"agencia"; u"reuters"; u"associated press"; u"ap "; u"afp"].

Definition spec_keep_agency (rt : Runtime) (art : Article) : bool :=
  existsb (fun kw =>
             Str.contains kw (lower rt (title art))
             || Str.contains kw (lower rt (Str.or_empty (description art))))
          agency_keywords.

(** The request [fetch_from_lista] builds when no domain list is given. *)
Definition default_lista_request (rt : Runtime) (topic language : pystr)
    (page_size : Z) : Request :=
  {| req_url := endpoint;
     req_headers := auth_headers (NEWSAPI_KEY rt);
     req_params := [(u"q", VStr topic);
                    (u"language", VStr language);
                    (u"pageSize", VInt page_size);
                    (u"sortBy", VStr u"publishedAt");
                    (u"domains", VStr default_domains)] |}.

(** [params.get(k)] on the items of a dictionary. *)
Fixpoint param_of (k : pystr) (items : list (pystr * pyval)) : option pyval :=
  match items with
  | [] => None
  | (k', v) :: rest => if Str.eqb k k' then Some v else param_of k rest
  end.

Definition param (k : pystr) (r : Request) : option pyval :=
  param_of k (req_params r).

(** The request of the unrestricted mode, and the request of the
    allowlisted mode for a given domain string. *)
Definition newsapi_request (rt : Runtime) (topic language : pystr)
    (page_size : Z) : Request :=
  {| req_url := endpoint;
     req_headers := auth_headers (NEWSAPI_KEY rt);
     req_params := [(u"q", VStr topic);
                    (u"language", VStr language);
                    (u"pageSize", VInt page_size);
                    (u"sortBy", VStr u"publishedAt")] |}.

Definition lista_request (rt : Runtime) (topic language : pystr)
    (page_size : Z) (domains : pystr) : Request :=
  {| req_url := endpoint;
     req_headers := auth_headers (NEWSAPI_KEY rt);
     req_params := [(u"q", VStr topic);
                    (u"language", VStr language);
                    (u"pageSize", VInt page_size);
                    (u"sortBy", VStr u"publishedAt");
                    (u"domains", VStr domains)] |}.

(** Some keyword of a list occurs in the lower-cased title or in the
    lower-cased description of an article. *)
Definition keep_by_keywords (rt : Runtime) (keywords : list pystr)
    (art : Article) : bool :=
  existsb (fun kw =>
             Str.contains kw (lower rt (title art))
             || Str.contains kw (desc_lower_of rt art))
          keywords.

Definition divulgacion_keywords : list pystr := [u"divulgación"].

Definition paper_keywords : list pystr :=
  [u"paper"; u"study"; u"investigación"].

Definition opinion_keywords : list pystr :=
  [u"opinión"; u"column"; u"op-ed"].

(** The namespace with another value of [--lista]. *)
Definition with_lista (args : Args) (l : option pystr) : Args :=
  {| topic := topic args; language := language args;
     max_results := max_results args; source := source args;
     article_type := article_type args; lista := l |}.

(** ** The script on every answer of the provider *)

(** [art.get(k, "")] returns [None] for a key that is present with the JSON
    value [null], for the title and the url as for the description.  The
    definitions above leave that case out for the title and the url; this
    module is the script with the three fields as [dict.get] delivers them.
    Two things change: [art["title"].lower()] at line 158 raises
    [AttributeError] when the title is [None], and the f-strings of
    [run_agent] render a [None] title or url as the four letters "None".
    [embeds_run_agent] shows that on answers without a [null] title or url
    the two agree. *)
Module Nullable.

(** The one exception the modelled code raises. *)
Inductive exn :=
| AttributeError.

(** How a call ends. *)
Inductive outcome (A : Type) : Type :=
| Returned (a : A)
| Raised (e : exn).

Arguments Returned {A} a.
Arguments Raised {A} e.

(** The dictionary of lines 79 to 83: each value is [None] or a [str]. *)
Record Article := mkArticle {
  title : option pystr;
  description : option pystr;
  url : option pystr
}.

(** One element of the [articles] array, every field as JSON has it. *)
Record RawArticle := mkRaw {
  raw_title : jfield;
  raw_description : jfield;
  raw_url : jfield
}.

Record Response := mkResponse {
  status_code : Z;
  text : pystr;
  json_articles : option (list RawArticle)
}.

(** [requests.get] is the argument [provider] of the functions below. *)
Definition get (provider : Request -> Response) (r : Request) : IO Response :=
  (provider r, [Get r]).

Definition normalise (art : RawArticle) : Article :=
  {| title := get_nullable (raw_title art);
     description := get_nullable (raw_description art);
     url := get_nullable (raw_url art) |}.

Definition collect (articles : list RawArticle) : list Article :=
  fold_left (fun results art => results ++ [normalise art]) articles [].

Definition articles_of (resp : Response) : list RawArticle :=
  match json_articles resp with
  | Some l => l
  | None => []
  end.

Definition fetch_from_newsapi (rt : Runtime) (provider : Request -> Response)
    (topic language : pystr) (page_size : Z) : IO (list Article) :=
  if negb (Str.truthy (NEWSAPI_KEY rt)) then
    print missing_key_msg ;; ret []
  else
    let params := [(u"q", VStr topic);
                   (u"language", VStr language);
                   (u"pageSize", VInt page_size);
                   (u"sortBy", VStr u"publishedAt")] in
    let headers := auth_headers (NEWSAPI_KEY rt) in
    resp <- get provider (mkRequest endpoint headers params) ;;
    if negb (status_code resp =? 200) then
      print (u"Error al obtener noticias de NewsAPI:" ++ u" " ++ text resp) ;;
      ret []
    else
      ret (collect (articles_of resp)).

Definition fetch_from_lista (rt : Runtime) (provider : Request -> Response)
    (topic language : pystr) (page_size : Z) (domain_string : option pystr)
    : IO (list Article) :=
  if negb (Str.truthy (NEWSAPI_KEY rt)) then
    print missing_key_msg ;; ret []
  else
    let domain_string :=
      if negb (Str.truthy domain_string) then default_domains
      else Str.or_empty domain_string in
    let params := [(u"q", VStr topic);
                   (u"language", VStr language);
                   (u"pageSize", VInt page_size);
                   (u"sortBy", VStr u"publishedAt");
                   (u"domains", VStr domain_string)] in
    let headers := auth_headers (NEWSAPI_KEY rt) in
    resp <- get provider (mkRequest endpoint headers params) ;;
    if negb (status_code resp =? 200) then
      print (u"Error al obtener noticias de la 'lista' de periódicos:"
             ++ u" " ++ text resp) ;;
      ret []
    else
      ret (collect (articles_of resp)).

Definition fetch_news (rt : Runtime) (provider : Request -> Response)
    (topic language : pystr) (page_size : Z) (source : pystr)
    (domain_string : option pystr) : IO (list Article) :=
  if Str.eqb source u"newsapi" then
    fetch_from_newsapi rt provider topic language page_size
  else if Str.eqb source u"lista" then
    fetch_from_lista rt provider topic language page_size domain_string
  else
    print (u"Fuente desconocida '" ++ source
           ++ u"'. Usa 'newsapi' o 'lista'.") ;;
    ret [].

(** [art["title"].lower()]: [None] has no attribute [lower]. *)
Definition title_lower_of (rt : Runtime) (art : Article) : outcome pystr :=
  match title art with
  | Some s => Returned (lower rt s)
  | None => Raised AttributeError
  end.

(** [art["description"].lower() if art["description"] else ""]. *)
Definition desc_lower_of (rt : Runtime) (art : Article) : pystr :=
  if Str.truthy (description art) then lower rt (Str.or_empty (description art))
  else [].

(** The body of the loop of lines 157 to 180: [filtered] after [art] has
    been looked at, or the exception of line 158. *)
Definition filter_step (rt : Runtime) (article_type : pystr)
    (filtered : list Article) (art : Article) : outcome (list Article) :=
  match title_lower_of rt art with
  | Raised e => Raised e
  | Returned title_lower =>
      let desc_lower := desc_lower_of rt art in
      Returned
        (if Str.eqb article_type u"divulgacion" then
           if Str.contains u"divulgación" title_lower
              || Str.contains u"divulgación" desc_lower
           then filtered ++ [art] else filtered
         else if Str.eqb article_type u"paper" then
           if Str.contains u"paper" title_lower
              || Str.contains u"study" title_lower
              || Str.contains u"investigación" title_lower
              || Str.contains u"paper" desc_lower
              || Str.contains u"study" desc_lower
              || Str.contains u"investigación" desc_lower
           then filtered ++ [art] else filtered
         else if Str.eqb article_type u"opinion" then
           if Str.contains u"opinión" title_lower
              || Str.contains u"column" title_lower
              || Str.contains u"op-ed" title_lower
              || Str.contains u"opinión" desc_lower
              || Str.contains u"column" desc_lower
              || Str.contains u"op-ed" desc_lower
           then filtered ++ [art] else filtered
         else if Str.eqb article_type u"agency" then
           if Str.contains u"agencia" title_lower
              || Str.contains u"reuters" title_lower
              || Str.contains u"associated press" title_lower
              || Str.contains u"ap " title_lower
              || Str.contains u"afp" title_lower
              || Str.contains u"agencia" desc_lower
              || Str.contains u"reuters" desc_lower
              || Str.contains u"ap " desc_lower
              || Str.contains u"afp" desc_lower
           then filtered ++ [art] else filtered
         else filtered)
  end.

(** [for art in articles: ...], entered with the list built so far; an
    exception of the body ends the loop and the call. *)
Fixpoint filter_loop (rt : Runtime) (article_type : pystr)
    (articles filtered : list Article) : outcome (list Article) :=
  match articles with
  | [] => Returned filtered
  | art :: rest =>
      match filter_step rt article_type filtered art with
      | Returned filtered' => filter_loop rt article_type rest filtered'
      | Raised e => Raised e
      end
  end.

Definition filter_by_article_type (rt : Runtime) (articles : list Article)
    (article_type : pystr) : outcome (list Article) :=
  if Str.eqb article_type u"all" || Str.eqb article_type u"any"
  then Returned articles
  else filter_loop rt article_type articles [].

(** [f"{v}"] for a value that is [None] or a [str]. *)
Definition format (v : option pystr) : pystr :=
  match v with
  | Some s => s
  | None => u"None"
  end.

(** [f"{title}. {desc}"] with [desc = art["description"] or ""]. *)
Definition text_to_summarize (art : Article) : pystr :=
  format (title art) ++ u". " ++ Str.or_empty (description art).

Definition block (i : Z) (art : Article) (summary_text : pystr) : pystr :=
  Str.of_Z i ++ u". Título: " ++ format (title art) ++ newline
  ++ u"   URL: " ++ format (url art) ++ newline
  ++ u"   Resumen: " ++ summary_text ++ newline.

Fixpoint summarize_from (rt : Runtime) (i : Z) (filtered : list Article)
    (final_summaries : list pystr) : IO (list pystr) :=
  match filtered with
  | [] => ret final_summaries
  | art :: rest =>
      summary_text <- dynamic_summarize rt (text_to_summarize art) 100 450 ;;
      summarize_from rt (i + 1) rest
        (final_summaries ++ [block i art summary_text])
  end.

(** A run returns [None], or is ended by the exception of the filter, which
    nothing catches. *)
Definition run_agent (rt : Runtime) (provider : Request -> Response)
    (args : Args) : IO (outcome unit) :=
  print (header1 args) ;;
  print (header2 args) ;;
  articles <- fetch_news rt provider (topic args) (language args)
                (max_results args) (source args) (lista args) ;;
  match filter_by_article_type rt articles (article_type args) with
  | Raised e => ret (Raised e)
  | Returned [] => print no_news_msg ;; ret (Returned tt)
  | Returned filtered =>
      final_summaries <- summarize_from rt 1 filtered [] ;;
      print banner ;;
      print_each final_summaries ;;
      ret (Returned tt)
  end.

(** *** Derived notions *)

Definition fetched (rt : Runtime) (provider : Request -> Response)
    (args : Args) : list Article :=
  value (fetch_news rt provider (topic args) (language args)
           (max_results args) (source args) (lista args)).

(** What the filter returns on the fetched articles of a run. *)
Definition filtered (rt : Runtime) (provider : Request -> Response)
    (args : Args) : outcome (list Article) :=
  filter_by_article_type rt (fetched rt provider args) (article_type args).

Definition has_title (art : Article) : bool :=
  match title art with
  | Some _ => true
  | None => false
  end.

(** The loop body appends the article it looks at. *)
Definition appends (rt : Runtime) (article_type : pystr) (art : Article) : bool :=
  match filter_step rt article_type [] art with
  | Returned (_ :: _) => true
  | _ => false
  end.

(** The decision the filter takes on one article: the whole list is
    returned for "all" and "any", otherwise the loop body appends or not. *)
Definition kept (rt : Runtime) (article_type : pystr) (art : Article) : bool :=
  Str.eqb article_type u"all" || Str.eqb article_type u"any"
  || appends rt article_type art.

(** The keywords a category looks for in the lower-cased title and in the
    lower-cased description, read off lines 161 to 179; a type that is none
    of the four has no keyword. *)
Definition title_keywords (article_type : pystr) : list pystr :=
  if Str.eqb article_type u"divulgacion" then [u"divulgación"]
  else if Str.eqb article_type u"paper" then
    [u"paper"; u"study"; u"investigación"]
  else if Str.eqb article_type u"opinion" then
    [u"opinión"; u"column"; u"op-ed"]
  else if Str.eqb article_type u"agency" then
    [u"agencia"; u"reuters"; u"associated press"; u"ap "; u"afp"]
  else [].

Definition description_keywords (article_type : pystr) : list pystr :=
  if Str.eqb article_type u"divulgacion" then [u"divulgación"]
  else if Str.eqb article_type u"paper" then
    [u"paper"; u"study"; u"investigación"]
  else if Str.eqb article_type u"opinion" then
    [u"opinión"; u"column"; u"op-ed"]
  else if Str.eqb article_type u"agency" then
    [u"agencia"; u"reuters"; u"ap "; u"afp"]
  else [].

(** Some keyword of the category occurs in the lower-cased title [s] or in
    the lower-cased description, a [None] or empty description counting as
    the empty string. *)
Definition matches (rt : Runtime) (article_type : pystr) (s : pystr)
    (d : option pystr) : bool :=
  existsb (fun kw => Str.contains kw (lower rt s)) (title_keywords article_type)
  || existsb (fun kw => Str.contains kw (lower rt (Str.or_empty d)))
       (description_keywords article_type).

(** The texts of the inference calls of a trace, in order. *)
Definition texts (tr : list Event) : list pystr :=
  map (fun c => fst (fst c)) (inferences tr).

(** The inference call made for one article, the summary it yields, and
    the blocks of the articles of a list, numbered from [i] on. *)
Definition inference_of (rt : Runtime) (art : Article) : list Event :=
  trace (dynamic_summarize rt (text_to_summarize art) 100 450).

Definition summary_of (rt : Runtime) (art : Article) : pystr :=
  value (dynamic_summarize rt (text_to_summarize art) 100 450).

Fixpoint numbered (rt : Runtime) (i : Z) (arts : list Article) : list pystr :=
  match arts with
  | [] => []
  | art :: rest => block i art (summary_of rt art) :: numbered rt (i + 1) rest
  end.

End Nullable.

(** An article, an element and an answer without [None] seen as ones of
    [Nullable]. *)
Definition nullable (art : Article) : Nullable.Article :=
  {| Nullable.title := Some (title art);
     Nullable.description := description art;
     Nullable.url := Some (url art) |}.

Definition jfield_of (f : option pystr) : jfield :=
  match f with
  | Some s => JStr s
  | None => Missing
  end.

Definition nullable_raw (art : RawArticle) : Nullable.RawArticle :=
  {| Nullable.raw_title := jfield_of (raw_title art);
     Nullable.raw_description := raw_description art;
     Nullable.raw_url := jfield_of (raw_url art) |}.

Definition nullable_response (resp : Response) : Nullable.Response :=
  {| Nullable.status_code := status_code resp;
     Nullable.text := text resp;
     Nullable.json_articles := option_map (map nullable_raw) (json_articles resp) |}.

Definition provider_of (rt : Runtime) : Request -> Nullable.Response :=
  fun r => nullable_response (requests_get rt r).

(** ** Concrete runs *)

Module Run.

(** A provider that answers every request with status 200 and the given
    articles; a summariser that answers "resumen". *)
Definition serving (key : option pystr) (arts : list RawArticle) : Runtime :=
  {| NEWSAPI_KEY := key;
     requests_get := fun _ => mkResponse 200 [] (Some arts);
     summarizer := fun _ _ _ => u"resumen";
     unicode_lower := fun s => s |}.

Definition args_for (source article_type : pystr) (lista : option pystr)
  : Args :=
  {| topic := u"clima"; language := u"es"; max_results := 5;
     source := source; article_type := article_type; lista := lista |}.


Definition weather : RawArticle :=
  mkRaw (Some u"Weather Today") Null (Some u"http://example.org/2").

Definition wire : Article :=
  mkArticle u"Lluvias en el norte" (Some u"Associated Press reports")
    u"http://example.org/3".

Definition wire_in_title : Article :=
  mkArticle u"Associated Press reports" (Some u"Lluvias en el norte")
    u"http://example.org/3".

Definition words (n : nat) : pystr := List.concat (repeat u"palabra " n).


(** Two runs with the filter "paper": the provider has nothing, or has one
    article that the filter drops. *)
Definition rt_nothing : Runtime := serving (Some u"clave") [].
Definition rt_weather : Runtime := serving (Some u"clave") [weather].
Definition args_paper : Args := args_for u"newsapi" u"paper" None.

(** A run with two articles of which the filter "paper" keeps the second. *)
Definition study : RawArticle :=
  mkRaw (Some u"New Study on Climate") (JStr u"resultados")
    (Some u"http://example.org/4").
Definition rt_two : Runtime := serving (Some u"clave") [weather; study].

(** A provider that answers every request with status 500 and a body. *)
Definition failing (key : option pystr) (body : pystr) : Runtime :=
  {| NEWSAPI_KEY := key;
     requests_get := fun _ => mkResponse 500 body None;
     summarizer := fun _ _ _ => u"resumen";
     unicode_lower := fun s => s |}.

Definition args_lista (domains : option pystr) : Args :=
  args_for u"lista" u"any" domains.

(** Answers in which a title or a url is [null]. *)
Definition answering (arts : list Nullable.RawArticle)
  : Request -> Nullable.Response :=
  fun _ => Nullable.mkResponse 200 [] (Some arts).

Definition rt_key : Runtime := serving (Some u"clave") [].

Definition null_title : Nullable.RawArticle :=
  Nullable.mkRaw Null (JStr u"sin titular") (JStr u"http://example.org/5").

Definition calm : Nullable.RawArticle :=
  Nullable.mkRaw (JStr u"Weather Today") Null (JStr u"http://example.org/2").

Definition climate : Nullable.RawArticle :=
  Nullable.mkRaw (JStr u"New Study on Climate") (JStr u"resultados")
    (JStr u"http://example.org/4").

Definition rain : Nullable.RawArticle :=
  Nullable.mkRaw (JStr u"Rain Tomorrow") (JStr u"A paper on rain") Null.

Definition args_sports : Args := args_for u"newsapi" u"sports" None.

End Run.

(** * Properties *)

(** ** Traces and strings *)

Lemma trace_bind {A B} (m : IO A) (k : A -> IO B) :
  trace (bind m k) = trace m ++ trace (k (value m)).
Proof.
  destruct m as [a e1]. unfold bind, trace, value. simpl.
  destruct (k a) as [b e2]. reflexivity.
Qed.

Lemma value_bind {A B} (m : IO A) (k : A -> IO B) :
  value (bind m k) = value (k (value m)).
Proof.
  destruct m as [a e1]. unfold bind, value. simpl.
  destruct (k a) as [b e2]. reflexivity.
Qed.

Lemma eqb_eq (a b : pystr) : Str.eqb a b = true <-> a = b.
Proof.
  revert b. induction a as [|x a IH]; intros [|y b]; simpl; split;
    try congruence; try reflexivity.
  - intros H. apply andb_true_iff in H as [Hx Hab].
    apply N.eqb_eq in Hx. apply IH in Hab. congruence.
  - intros H. injection H as -> ->. rewrite N.eqb_refl. simpl.
    apply IH. reflexivity.
Qed.

Lemma eqb_neq (a b : pystr) : Str.eqb a b = false <-> a <> b.
Proof.
  split.
  - intros H E. apply eqb_eq in E. congruence.
  - intros H. destruct (Str.eqb a b) eqn:E; [|reflexivity].
    apply eqb_eq in E. contradiction.
Qed.


Lemma requests_app (t1 t2 : list Event) :
  requests (t1 ++ t2) = requests t1 ++ requests t2.
Proof. apply flat_map_app. Qed.

Lemma inferences_app (t1 t2 : list Event) :
  inferences (t1 ++ t2) = inferences t1 ++ inferences t2.
Proof. apply flat_map_app. Qed.

(** ** The length budget *)

Lemma int_mul_0_8_floor (n : Z) : 0 <= n -> int_mul_0_8 n = (8 * n) / 10.
Proof. intros H. unfold int_mul_0_8. apply Z.quot_div_nonneg; lia. Qed.

(** On every word count below 4096 the binary64 computation and the exact
    one agree. *)
Lemma int_mul_0_8_binary64 :
  forallb (fun n => binary64_int_mul_0_8 n =? int_mul_0_8 n)
    (map Z.of_nat (seq 0 4096)) = true.
Proof. vm_compute. reflexivity. Qed.

Lemma dynamic_summarize_trace (rt : Runtime) (text : pystr) (min_len max_len : Z) :
  exists mx,
    dynamic_summarize rt text min_len max_len
    = (summarizer rt text mx min_len, [Summarize text mx min_len])
    /\ min_len <= mx
    /\ mx = (let m := Z.min max_len
                        (int_mul_0_8 (Z.of_nat (List.length (Str.split text)))) in
             if m <? min_len then min_len + 5 else m).
Proof.
  unfold dynamic_summarize.
  set (m := Z.min max_len _).
  destruct (m <? min_len) eqn:E.
  - exists (min_len + 5). split; [reflexivity | split; [lia | reflexivity]].
  - exists m. split; [reflexivity | split; [ | reflexivity]].
    apply Z.ltb_ge in E. exact E.
Qed.

(** C1: with the defaults 100 and 450 the single inference call of
    [dynamic_summarize] gets [max_length = min(450, floor(0.8 * words))] when
    that is at least 100 and 105 otherwise; 50 words give 105 and 1000 words
    give 450. *)
Theorem dynamic_summarize_default_budget (rt : Runtime) (text : pystr) :
  let word_count := Z.of_nat (List.length (Str.split text)) in
  trace (dynamic_summarize rt text 100 450)
  = [Summarize text (spec_max_length word_count) 100]
  /\ (word_count = 50 ->
      inferences (trace (dynamic_summarize rt text 100 450)) = [(text, 105, 100)])
  /\ (word_count = 1000 ->
      inferences (trace (dynamic_summarize rt text 100 450)) = [(text, 450, 100)]).
Proof.
  intros word_count.
  assert (Hwc : 0 <= word_count) by (unfold word_count; lia).
  assert (Htr : trace (dynamic_summarize rt text 100 450)
                = [Summarize text (spec_max_length word_count) 100]).
  { unfold dynamic_summarize, trace, spec_max_length. simpl snd.
    fold word_count. rewrite (int_mul_0_8_floor _ Hwc).
    set (m := Z.min 450 (8 * word_count / 10)).
    destruct (m <? 100) eqn:E1; destruct (100 <=? m) eqn:E2;
      try reflexivity; lia. }
  split; [exact Htr|]. rewrite Htr.
  split; intros ->; reflexivity.
Qed.

Lemma dynamic_summarize_default_budget_witness :
  (Z.of_nat (List.length (Str.split (Run.words 50))) = 50
   /\ inferences (trace (dynamic_summarize (Run.serving None [])
                           (Run.words 50) 100 450))
      = [(Run.words 50, 105, 100)])
  /\ (Z.of_nat (List.length (Str.split (Run.words 1000))) = 1000
      /\ inferences (trace (dynamic_summarize (Run.serving None [])
                              (Run.words 1000) 100 450))
         = [(Run.words 1000, 450, 100)]).
Proof.
  split; (split; [vm_compute; reflexivity|]).
  - apply (dynamic_summarize_default_budget (Run.serving None []) (Run.words 50)).
    vm_compute; reflexivity.
  - apply (dynamic_summarize_default_budget (Run.serving None []) (Run.words 1000)).
    vm_compute; reflexivity.
Defined.

(** C2: whatever [min_len], [max_len] and the text are, the inference call
    gets a [max_length] that is not below its [min_length], which is
    [min_len]. *)
Theorem dynamic_summarize_max_ge_min (rt : Runtime) (text : pystr)
    (min_len max_len : Z) :
  exists estimated_max,
    trace (dynamic_summarize rt text min_len max_len)
    = [Summarize text estimated_max min_len]
    /\ min_len <= estimated_max.
Proof.
  destruct (dynamic_summarize_trace rt text min_len max_len) as (mx & E & H & _).
  exists mx. rewrite E. split; [reflexivity | exact H].
Qed.

(** ** Fetching *)

Lemma fetch_from_newsapi_no_key (rt : Runtime) (topic language : pystr)
    (page_size : Z) :
  Str.truthy (NEWSAPI_KEY rt) = false ->
  fetch_from_newsapi rt topic language page_size = ([], [Print missing_key_msg]).
Proof. intros H. unfold fetch_from_newsapi. rewrite H. reflexivity. Qed.

Lemma fetch_from_lista_no_key (rt : Runtime) (topic language : pystr)
    (page_size : Z) (domain_string : option pystr) :
  Str.truthy (NEWSAPI_KEY rt) = false ->
  fetch_from_lista rt topic language page_size domain_string
  = ([], [Print missing_key_msg]).
Proof. intros H. unfold fetch_from_lista. rewrite H. reflexivity. Qed.

Lemma fetch_news_newsapi (rt : Runtime) (topic language : pystr)
    (page_size : Z) (domain_string : option pystr) :
  fetch_news rt topic language page_size u"newsapi" domain_string
  = fetch_from_newsapi rt topic language page_size.
Proof. reflexivity. Qed.

Lemma fetch_news_lista (rt : Runtime) (topic language : pystr)
    (page_size : Z) (domain_string : option pystr) :
  fetch_news rt topic language page_size u"lista" domain_string
  = fetch_from_lista rt topic language page_size domain_string.
Proof. reflexivity. Qed.

(** C6: without a credential ([NEWSAPI_KEY] unset or empty) both fetch
    functions, called directly or through [fetch_news], return the empty list
    after printing the missing-key message; no request is sent and the call
    returns normally. *)
Theorem fetch_without_credential (rt : Runtime) (topic language : pystr)
    (page_size : Z) (domain_string : option pystr) :
  Str.truthy (NEWSAPI_KEY rt) = false ->
  let unrestricted := fetch_news rt topic language page_size u"newsapi" domain_string in
  let allowlisted := fetch_news rt topic language page_size u"lista" domain_string in
  fetch_from_newsapi rt topic language page_size = ([], [Print missing_key_msg])
  /\ fetch_from_lista rt topic language page_size domain_string
     = ([], [Print missing_key_msg])
  /\ value unrestricted = [] /\ value allowlisted = []
  /\ printed (trace unrestricted) = [missing_key_msg]
  /\ printed (trace allowlisted) = [missing_key_msg]
  /\ requests (trace unrestricted) = []
  /\ requests (trace allowlisted) = [].
Proof.
  intros H unrestricted allowlisted.
  unfold unrestricted, allowlisted.
  rewrite fetch_news_newsapi, fetch_news_lista.
  rewrite (fetch_from_newsapi_no_key rt topic language page_size H).
  rewrite (fetch_from_lista_no_key rt topic language page_size domain_string H).
  repeat split.
Qed.

Lemma fetch_without_credential_witness :
  Str.truthy (NEWSAPI_KEY (Run.serving None [Run.weather])) = false
  /\ fetch_from_lista (Run.serving None [Run.weather])
       u"clima" u"es" 5 (Some u"elpais.com")
     = ([], [Print missing_key_msg]).
Proof.
  split; [reflexivity|].
  exact (proj1 (proj2 (fetch_without_credential
                         (Run.serving None [Run.weather])
                         u"clima" u"es" 5 (Some u"elpais.com") eq_refl))).
Defined.

(** C7: in 'lista' mode an absent or empty domain string is replaced by the
    built-in list of six domains, and the one request that is sent (when a
    credential is configured) carries it as its [domains] parameter. *)
Theorem lista_substitutes_default_domains (rt : Runtime)
    (topic language : pystr) (page_size : Z) (domain_string : option pystr) :
  Str.truthy domain_string = false ->
  requests (trace (fetch_news rt topic language page_size u"lista" domain_string))
  = (if Str.truthy (NEWSAPI_KEY rt)
     then [default_lista_request rt topic language page_size] else [])
  /\ default_domains
     = join u"," [u"bbc.co.uk"; u"washingtonpost.com"; u"lemonde.fr";
                  u"elpais.com"; u"elmundo.es"; u"europapress.es"].
Proof.
  intros H. split; [|reflexivity].
  rewrite fetch_news_lista. unfold fetch_from_lista.
  destruct (Str.truthy (NEWSAPI_KEY rt)); [|reflexivity].
  rewrite H. cbn [negb]. rewrite trace_bind, requests_app.
  unfold get at 1. cbn [trace snd value fst].
  fold (default_lista_request rt topic language page_size).
  destruct (negb (status_code _ =? 200)); reflexivity.
Qed.

Lemma lista_substitutes_default_domains_witness :
  Str.truthy (Some []) = false
  /\ requests (trace (fetch_news (Run.serving (Some u"clave") [])
                        u"clima" u"es" 5 u"lista" (Some [])))
     = [default_lista_request (Run.serving (Some u"clave") []) u"clima" u"es" 5].
Proof.
  split; [reflexivity|].
  exact (proj1 (lista_substitutes_default_domains
                  (Run.serving (Some u"clave") [])
                  u"clima" u"es" 5 (Some []) eq_refl)).
Defined.

(** C9: a source other than "newsapi" and "lista" makes [fetch_news] print
    the unknown-source message and return the empty list; no request is
    sent and nothing is raised. *)
Theorem fetch_news_unknown_source (rt : Runtime) (topic language : pystr)
    (page_size : Z) (source : pystr) (domain_string : option pystr) :
  source <> u"newsapi" -> source <> u"lista" ->
  fetch_news rt topic language page_size source domain_string
  = ([], [Print (u"Fuente desconocida '" ++ source
                 ++ u"'. Usa 'newsapi' o 'lista'.")])
  /\ requests (trace (fetch_news rt topic language page_size source
                        domain_string)) = [].
Proof.
  intros H1 H2. apply eqb_neq in H1, H2.
  unfold fetch_news. rewrite H1, H2. split; reflexivity.
Qed.

Lemma fetch_news_unknown_source_witness :
  fetch_news (Run.serving (Some u"clave") [Run.weather])
    u"clima" u"es" 5 u"rss" None
  = ([], [Print (u"Fuente desconocida '" ++ u"rss"
                 ++ u"'. Usa 'newsapi' o 'lista'.")]).
Proof.
  assert (H1 : u"rss" <> u"newsapi") by (vm_compute; discriminate).
  assert (H2 : u"rss" <> u"lista") by (vm_compute; discriminate).
  exact (proj1 (fetch_news_unknown_source
                  (Run.serving (Some u"clave") [Run.weather])
                  u"clima" u"es" 5 u"rss" None H1 H2)).
Defined.

(** ** Filtering *)

Ltac case_ifs :=
  repeat match goal with
         | |- context [if ?c then _ else _] => destruct c
         end.

Lemma filter_step_app (rt : Runtime) (t : pystr) (filtered : list Article)
    (art : Article) :
  filter_step rt t filtered art = filtered ++ filter_step rt t [] art.
Proof.
  unfold filter_step. case_ifs; rewrite ?app_nil_r; reflexivity.
Qed.

Lemma filter_step_nil (rt : Runtime) (t : pystr) (art : Article) :
  filter_step rt t [] art
  = if match filter_step rt t [] art with [] => false | _ :: _ => true end
    then [art] else [].
Proof.
  assert (H : filter_step rt t [] art = [] \/ filter_step rt t [] art = [art]).
  { unfold filter_step. case_ifs; auto. }
  destruct H as [-> | ->]; reflexivity.
Qed.

Lemma fold_filter_step (rt : Runtime) (t : pystr) (articles acc : list Article) :
  fold_left (filter_step rt t) articles acc
  = acc ++ filter (fun art => match filter_step rt t [] art with
                              | [] => false
                              | _ :: _ => true
                              end) articles.
Proof.
  revert acc. induction articles as [|art rest IH]; intros acc; simpl.
  - now rewrite app_nil_r.
  - rewrite IH, filter_step_app, (filter_step_nil rt t art).
    destruct (match filter_step rt t [] art with [] => false | _ :: _ => true end).
    + now rewrite <- app_assoc.
    + now rewrite app_nil_r.
Qed.

Lemma filter_all (A : Type) (l : list A) : filter (fun _ => true) l = l.
Proof. induction l as [|x l IH]; simpl; [reflexivity | now rewrite IH]. Qed.

Lemma filter_by_article_type_filter (rt : Runtime) (articles : list Article)
    (t : pystr) :
  filter_by_article_type rt articles t = filter (kept rt t) articles.
Proof.
  unfold filter_by_article_type.
  destruct (Str.eqb t u"all" || Str.eqb t u"any") eqn:E.
  - rewrite <- (filter_all _ articles) at 1. apply filter_ext.
    intros art. unfold kept. now rewrite E.
  - rewrite fold_filter_step. simpl. apply filter_ext.
    intros art. unfold kept. now rewrite E.
Qed.

Lemma filter_by_article_type_nil (rt : Runtime) (t : pystr) :
  filter_by_article_type rt [] t = [].
Proof. now rewrite filter_by_article_type_filter. Qed.



(** C3 (the code departs from it): under "agency" the keyword "associated
    press" is looked for in the title only.  An article whose description
    holds it, and whose title and description hold no other keyword, is kept
    by the decision of the specification and dropped by the filter; the same
    words in the title keep the article. *)
Theorem agency_misses_associated_press_in_description (rt : Runtime) :
  spec_keep_agency rt Run.wire = true
  /\ filter_by_article_type rt [Run.wire] u"agency" = []
  /\ filter_by_article_type rt [Run.wire_in_title] u"agency"
     = [Run.wire_in_title].
Proof. repeat split; vm_compute; reflexivity. Qed.

Lemma desc_lower_of_or_empty (rt : Runtime) (art : Article) :
  desc_lower_of rt art = lower rt (Str.or_empty (description art)).
Proof.
  unfold desc_lower_of. destruct (description art) as [[|c d]|]; reflexivity.
Qed.

(** The condition of the "agency" branch, as lines 176 to 179 have it. *)
Lemma kept_agency (rt : Runtime) (art : Article) :
  kept rt u"agency" art
  = (let title_lower := lower rt (title art) in
     let desc_lower := desc_lower_of rt art in
     Str.contains u"agencia" title_lower
     || Str.contains u"reuters" title_lower
     || Str.contains u"associated press" title_lower
     || Str.contains u"ap " title_lower
     || Str.contains u"afp" title_lower
     || Str.contains u"agencia" desc_lower
     || Str.contains u"reuters" desc_lower
     || Str.contains u"ap " desc_lower
     || Str.contains u"afp" desc_lower).
Proof.
  unfold kept, filter_step.
  change (Str.eqb u"agency" u"all") with false.
  change (Str.eqb u"agency" u"any") with false.
  change (Str.eqb u"agency" u"divulgacion") with false.
  change (Str.eqb u"agency" u"paper") with false.
  change (Str.eqb u"agency" u"opinion") with false.
  change (Str.eqb u"agency" u"agency") with true.
  cbv beta iota zeta. cbn [orb].
  match goal with
  | |- context [if ?c then _ else _] =>
      match goal with |- _ = ?r => change r with c end; destruct c
  end; reflexivity.
Qed.

(** Apart from "associated press" in the description, the filter and the
    decision of the specification agree on every article. *)
Lemma agency_agrees_elsewhere (rt : Runtime) (art : Article) :
  Str.contains u"associated press" (desc_lower_of rt art) = false ->
  kept rt u"agency" art = spec_keep_agency rt art.
Proof.
  intros H. rewrite kept_agency. unfold spec_keep_agency, agency_keywords.
  cbn [existsb]. rewrite <- desc_lower_of_or_empty. cbv zeta. rewrite H.
  destruct (Str.contains u"agencia" (lower rt (title art)));
  destruct (Str.contains u"reuters" (lower rt (title art)));
  destruct (Str.contains u"associated press" (lower rt (title art)));
  destruct (Str.contains u"ap " (lower rt (title art)));
  destruct (Str.contains u"afp" (lower rt (title art)));
  destruct (Str.contains u"agencia" (desc_lower_of rt art));
  destruct (Str.contains u"reuters" (desc_lower_of rt art));
  destruct (Str.contains u"ap " (desc_lower_of rt art));
  destruct (Str.contains u"afp" (desc_lower_of rt art)); reflexivity.
Qed.

(** ** One run of the agent *)

Lemma inference_of_single (rt : Runtime) (art : Article) :
  exists mx,
    inference_of rt art = [Summarize (text_to_summarize art) mx 100].
Proof.
  unfold inference_of.
  destruct (dynamic_summarize_trace rt (text_to_summarize art) 100 450)
    as (mx & E & _).
  exists mx. now rewrite E.
Qed.

Lemma summarize_from_value (rt : Runtime) (arts : list Article) (i : Z)
    (acc : list pystr) :
  value (summarize_from rt i arts acc) = acc ++ numbered rt i arts.
Proof.
  revert i acc. induction arts as [|art rest IH]; intros i acc;
    cbn [summarize_from numbered].
  - unfold ret, value. simpl. now rewrite app_nil_r.
  - rewrite value_bind, IH, <- app_assoc. reflexivity.
Qed.

Lemma summarize_from_trace (rt : Runtime) (arts : list Article) (i : Z)
    (acc : list pystr) :
  trace (summarize_from rt i arts acc) = flat_map (inference_of rt) arts.
Proof.
  revert i acc. induction arts as [|art rest IH]; intros i acc;
    cbn [summarize_from flat_map].
  - reflexivity.
  - rewrite trace_bind, IH. reflexivity.
Qed.

Lemma print_each_trace (l : list pystr) : trace (print_each l) = map Print l.
Proof.
  induction l as [|x l IH]; cbn [print_each map]; [reflexivity|].
  rewrite trace_bind, IH. reflexivity.
Qed.


Lemma inferences_prints (l : list pystr) : inferences (map Print l) = [].
Proof. induction l as [|x l IH]; simpl; [reflexivity | exact IH]. Qed.



Lemma fetch_news_no_inference (rt : Runtime) (topic language : pystr)
    (page_size : Z) (source : pystr) (domain_string : option pystr) :
  inferences (trace (fetch_news rt topic language page_size source
                       domain_string)) = [].
Proof.
  unfold fetch_news, fetch_from_newsapi, fetch_from_lista.
  destruct (Str.eqb source u"newsapi");
    [|destruct (Str.eqb source u"lista")];
    try reflexivity;
    (destruct (negb (Str.truthy (NEWSAPI_KEY rt))); [reflexivity|];
     rewrite trace_bind, inferences_app; case_ifs; reflexivity).
Qed.

(** The whole trace of [run_agent]. *)
Lemma run_agent_trace (rt : Runtime) (args : Args) :
  trace (run_agent rt args)
  = [Print (header1 args); Print (header2 args)]
    ++ trace (fetch_news rt (topic args) (language args) (max_results args)
                (source args) (lista args))
    ++ match summarized rt args with
       | [] => [Print no_news_msg]
       | _ :: _ =>
           flat_map (inference_of rt) (summarized rt args)
           ++ Print banner :: map Print (numbered rt 1 (summarized rt args))
       end.
Proof.
  unfold run_agent. rewrite !trace_bind. cbn [print trace snd value fst app].
  do 3 f_equal. unfold summarized, fetched, value.
  destruct (filter_by_article_type rt _ (article_type args)) as [|art rest] eqn:E;
    [reflexivity|].
  rewrite !trace_bind, summarize_from_trace, summarize_from_value, print_each_trace.
  reflexivity.
Qed.



Lemma inferences_print (l : pystr) (tr : list Event) :
  inferences (Print l :: tr) = inferences tr.
Proof. reflexivity. Qed.




(** A run with no survivor: no inference, and the message of the filter
    is the last thing printed. *)
Lemma run_agent_quiet (rt : Runtime) (args : Args) :
  summarized rt args = [] ->
  trace (run_agent rt args)
  = [Print (header1 args); Print (header2 args)]
    ++ trace (fetch_news rt (topic args) (language args) (max_results args)
                (source args) (lista args))
    ++ [Print no_news_msg].
Proof. intros H. rewrite run_agent_trace, H. reflexivity. Qed.






(** C5 (as the code has it): when nothing is fetched the filter has nothing
    to keep, and a run in which the filter keeps nothing prints its two
    header lines, what the fetch printed, and the one message "No se
    encontraron noticias tras el filtro."; it makes no inference call,
    prints no block and returns.  The message is the same whether the fetch
    was empty or the filter dropped every article. *)
Theorem run_agent_nothing_to_summarize (rt : Runtime) (args : Args) :
  (fetched rt args = [] -> summarized rt args = [])
  /\ (summarized rt args = [] ->
      trace (run_agent rt args)
      = [Print (header1 args); Print (header2 args)]
        ++ trace (fetch_news rt (topic args) (language args)
                    (max_results args) (source args) (lista args))
        ++ [Print no_news_msg]
      /\ inferences (trace (run_agent rt args)) = []
      /\ value (run_agent rt args) = tt).
Proof.
  split.
  - intros H. unfold summarized. rewrite H.
    apply filter_by_article_type_nil.
  - intros H. split; [apply run_agent_quiet; exact H|]. split.
    + rewrite (run_agent_quiet rt args H), !inferences_app,
        fetch_news_no_inference.
      reflexivity.
    + destruct (value (run_agent rt args)). reflexivity.
Qed.

Lemma run_agent_nothing_to_summarize_witness :
  summarized Run.rt_nothing Run.args_paper = []
  /\ inferences (trace (run_agent Run.rt_weather Run.args_paper)) = [].
Proof.
  split.
  - apply (proj1 (run_agent_nothing_to_summarize Run.rt_nothing Run.args_paper)).
    vm_compute. reflexivity.
  - apply (proj2 (run_agent_nothing_to_summarize Run.rt_weather Run.args_paper)).
    vm_compute. reflexivity.
Defined.

(** C5 as worded fails: with the same arguments, a run whose fetch is empty
    and a run whose only article is dropped by the filter print the same
    lines. *)
Lemma no_articles_report_not_distinct :
  ~ (forall rt1 rt2 args,
        fetched rt1 args = [] ->
        fetched rt2 args <> [] ->
        summarized rt2 args = [] ->
        printed (trace (run_agent rt1 args))
        <> printed (trace (run_agent rt2 args))).
Proof.
  intros H.
  apply (H Run.rt_nothing Run.rt_weather Run.args_paper).
  - vm_compute. reflexivity.
  - vm_compute. discriminate.
  - vm_compute. reflexivity.
  - vm_compute. reflexivity.
Qed.

(** ** Checks of the model on the examples of the specification *)

Example lit_decodes_accents :
  u"opinión" = [111; 112; 105; 110; 105; 243; 110]%N.
Proof. vm_compute. reflexivity. Qed.

Example split_drops_blank_runs :
  Str.split (u"  hola   mundo ") = [u"hola"; u"mundo"].
Proof. vm_compute. reflexivity. Qed.

Example of_Z_decimal :
  Str.of_Z 0 = u"0" /\ Str.of_Z 12 = u"12" /\ Str.of_Z (-5) = u"-5".
Proof. repeat split; vm_compute; reflexivity. Qed.

Example paper_keeps_study (rt : Runtime) :
  filter_by_article_type rt
    [normalise Run.weather; normalise Run.study] u"paper"
  = [normalise Run.study].
Proof. vm_compute. reflexivity. Qed.

Example any_keeps_everything (rt : Runtime) (articles : list Article) :
  filter_by_article_type rt articles u"any" = articles.
Proof. reflexivity. Qed.

Example run_two_prints :
  printed (trace (run_agent Run.rt_two Run.args_paper))
  = [ [10%N] ++ u"Buscando noticias sobre 'clima' en idioma 'es'...";
      u"Fuente: newsapi | Máx resultados: 5 | Tipo artículo: paper";
      u"===== RESUMEN DE NOTICIAS =====";
      u"1. Título: New Study on Climate" ++ [10%N]
      ++ u"   URL: http://example.org/4" ++ [10%N]
      ++ u"   Resumen: resumen" ++ [10%N] ].
Proof. vm_compute. reflexivity. Qed.

(** * Further properties of the code *)

(** ** Fetching: answers of the provider *)

Lemma collect_from (articles : list RawArticle) (acc : list Article) :
  fold_left (fun results art => results ++ [normalise art]) articles acc
  = acc ++ map normalise articles.
Proof.
  revert acc. induction articles as [|art rest IH]; intros acc; simpl.
  - now rewrite app_nil_r.
  - now rewrite IH, <- app_assoc.
Qed.

Lemma collect_map (articles : list RawArticle) :
  collect articles = map normalise articles.
Proof. unfold collect. now rewrite collect_from. Qed.

Lemma fetch_from_newsapi_with_key (rt : Runtime) (topic language : pystr)
    (page_size : Z) :
  Str.truthy (NEWSAPI_KEY rt) = true ->
  let req := newsapi_request rt topic language page_size in
  let resp := requests_get rt req in
  fetch_from_newsapi rt topic language page_size
  = if status_code resp =? 200
    then (map normalise (articles_of resp), [Get req])
    else ([], [Get req;
               Print (u"Error al obtener noticias de NewsAPI:" ++ u" "
                      ++ text resp)]).
Proof.
  intros H req resp. subst resp req.
  unfold fetch_from_newsapi, newsapi_request. rewrite H. cbn [negb].
  unfold get, bind. rewrite collect_map.
  match goal with
  | |- context [status_code ?r =? 200] => destruct (status_code r =? 200)
  end; reflexivity.
Qed.

Lemma fetch_from_lista_with_key (rt : Runtime) (topic language : pystr)
    (page_size : Z) (domain_string : option pystr) :
  Str.truthy (NEWSAPI_KEY rt) = true ->
  let domains := if Str.truthy domain_string then Str.or_empty domain_string
                 else default_domains in
  let req := lista_request rt topic language page_size domains in
  let resp := requests_get rt req in
  fetch_from_lista rt topic language page_size domain_string
  = if status_code resp =? 200
    then (map normalise (articles_of resp), [Get req])
    else ([], [Get req;
               Print (u"Error al obtener noticias de la 'lista' de periódicos:"
                      ++ u" " ++ text resp)]).
Proof.
  intros H domains req resp. subst resp req domains.
  unfold fetch_from_lista, lista_request. rewrite H. cbn [negb].
  unfold get, bind. rewrite collect_map.
  destruct (Str.truthy domain_string); cbn [negb];
  match goal with
  | |- context [status_code ?r =? 200] => destruct (status_code r =? 200)
  end; reflexivity.
Qed.

(** X1: with a credential and an answer of status 200, the unrestricted
    fetch sends one request (topic, language, page size and the sort order,
    no [domains] parameter) and returns one article per element of the
    provider's array, in the provider's order, each with its missing title
    or url replaced by the empty string; nothing is printed. *)
Theorem fetch_from_newsapi_success (rt : Runtime) (topic language : pystr)
    (page_size : Z) :
  Str.truthy (NEWSAPI_KEY rt) = true ->
  status_code (requests_get rt (newsapi_request rt topic language page_size))
  = 200 ->
  let resp := requests_get rt (newsapi_request rt topic language page_size) in
  fetch_from_newsapi rt topic language page_size
  = (map normalise (articles_of resp),
     [Get (newsapi_request rt topic language page_size)])
  /\ List.length (value (fetch_from_newsapi rt topic language page_size))
     = List.length (articles_of resp)
  /\ param u"domains" (newsapi_request rt topic language page_size) = None
  /\ param u"q" (newsapi_request rt topic language page_size)
     = Some (VStr topic)
  /\ param u"pageSize" (newsapi_request rt topic language page_size)
     = Some (VInt page_size).
Proof.
  intros Hk Hs resp.
  pose proof (fetch_from_newsapi_with_key rt topic language page_size Hk) as E.
  cbv zeta in E. rewrite Hs in E. cbn [Z.eqb Pos.eqb] in E.
  split; [exact E|]. split.
  - rewrite E. unfold value. cbn [fst]. apply length_map.
  - repeat split; vm_compute; reflexivity.
Qed.

Lemma fetch_from_newsapi_success_witness :
  fetch_from_newsapi Run.rt_two u"clima" u"es" 5
  = (map normalise
       (articles_of (requests_get Run.rt_two
                       (newsapi_request Run.rt_two u"clima" u"es" 5))),
     [Get (newsapi_request Run.rt_two u"clima" u"es" 5)]).
Proof.
  exact (proj1 (fetch_from_newsapi_success Run.rt_two u"clima" u"es" 5
                  eq_refl eq_refl)).
Defined.

(** X2: with a credential and an answer whose status is not 200, either
    fetch function returns the empty list after one request and prints one
    line, the error text of its mode followed by a space and the raw body of
    the answer. *)
Theorem fetch_provider_error (rt : Runtime) (topic language : pystr)
    (page_size : Z) (domain_string : option pystr) :
  Str.truthy (NEWSAPI_KEY rt) = true ->
  let req := newsapi_request rt topic language page_size in
  let domains := if Str.truthy domain_string then Str.or_empty domain_string
                 else default_domains in
  let req' := lista_request rt topic language page_size domains in
  (status_code (requests_get rt req) <> 200 ->
   fetch_from_newsapi rt topic language page_size
   = ([], [Get req;
           Print (u"Error al obtener noticias de NewsAPI:" ++ u" "
                  ++ text (requests_get rt req))]))
  /\ (status_code (requests_get rt req') <> 200 ->
      fetch_from_lista rt topic language page_size domain_string
      = ([], [Get req';
              Print (u"Error al obtener noticias de la 'lista' de periódicos:"
                     ++ u" " ++ text (requests_get rt req'))])).
Proof.
  intros Hk req domains req'. split; intros Hs.
  - pose proof (fetch_from_newsapi_with_key rt topic language page_size Hk) as E.
    cbv zeta in E. fold req in E. apply Z.eqb_neq in Hs. now rewrite Hs in E.
  - pose proof (fetch_from_lista_with_key rt topic language page_size
                  domain_string Hk) as E.
    cbv zeta in E. fold domains in E. fold req' in E.
    apply Z.eqb_neq in Hs. now rewrite Hs in E.
Qed.

Lemma fetch_provider_error_witness :
  fetch_from_newsapi (Run.failing (Some u"clave") u"rate limited")
    u"clima" u"es" 5
  = ([], [Get (newsapi_request (Run.failing (Some u"clave") u"rate limited")
                 u"clima" u"es" 5);
          Print (u"Error al obtener noticias de NewsAPI:" ++ u" "
                 ++ text (requests_get
                            (Run.failing (Some u"clave") u"rate limited")
                            (newsapi_request
                               (Run.failing (Some u"clave") u"rate limited")
                               u"clima" u"es" 5)))]).
Proof.
  apply (proj1 (fetch_provider_error
                  (Run.failing (Some u"clave") u"rate limited")
                  u"clima" u"es" 5 None eq_refl)).
  vm_compute. discriminate.
Defined.

(** X3: with a credential, a non-empty domain string given by the caller is
    sent unchanged as the [domains] parameter of the one request of the
    allowlisted fetch; on status 200 the articles of the answer are returned
    in order. *)
Theorem fetch_from_lista_passes_domains (rt : Runtime)
    (topic language : pystr) (page_size : Z) (domains : pystr) :
  Str.truthy (NEWSAPI_KEY rt) = true ->
  domains <> [] ->
  let req := lista_request rt topic language page_size domains in
  requests (trace (fetch_from_lista rt topic language page_size (Some domains)))
  = [req]
  /\ param u"domains" req = Some (VStr domains)
  /\ (status_code (requests_get rt req) = 200 ->
      value (fetch_from_lista rt topic language page_size (Some domains))
      = map normalise (articles_of (requests_get rt req))).
Proof.
  intros Hk Hd req.
  pose proof (fetch_from_lista_with_key rt topic language page_size
                (Some domains) Hk) as E.
  cbv zeta in E.
  assert (Ht : Str.truthy (Some domains) = true)
    by (destruct domains; [contradiction | reflexivity]).
  rewrite Ht in E. cbn [Str.or_empty] in E. fold req in E.
  split; [|split].
  - rewrite E. destruct (status_code (requests_get rt req) =? 200); reflexivity.
  - vm_compute. reflexivity.
  - intros Hs. rewrite E, Hs. reflexivity.
Qed.

Lemma fetch_from_lista_passes_domains_witness :
  requests (trace (fetch_from_lista Run.rt_two u"clima" u"es" 5
                     (Some u"elpais.com,bbc.co.uk")))
  = [lista_request Run.rt_two u"clima" u"es" 5 u"elpais.com,bbc.co.uk"].
Proof.
  apply (fetch_from_lista_passes_domains Run.rt_two u"clima" u"es" 5
           u"elpais.com,bbc.co.uk" eq_refl).
  vm_compute. discriminate.
Defined.

(** What [fetch_news] sends, in every case. *)
Lemma fetch_news_requests_cases (rt : Runtime) (topic language : pystr)
    (page_size : Z) (source : pystr) (domain_string : option pystr) :
  requests (trace (fetch_news rt topic language page_size source domain_string))
  = if Str.truthy (NEWSAPI_KEY rt) then
      if Str.eqb source u"newsapi" then
        [newsapi_request rt topic language page_size]
      else if Str.eqb source u"lista" then
        [lista_request rt topic language page_size
           (if Str.truthy domain_string then Str.or_empty domain_string
            else default_domains)]
      else []
    else [].
Proof.
  unfold fetch_news.
  destruct (Str.truthy (NEWSAPI_KEY rt)) eqn:Hk.
  - destruct (Str.eqb source u"newsapi").
    + pose proof (fetch_from_newsapi_with_key rt topic language page_size Hk) as E.
      cbv zeta in E. rewrite E.
      match goal with
      | |- context [status_code ?r =? 200] => destruct (status_code r =? 200)
      end; reflexivity.
    + destruct (Str.eqb source u"lista"); [|reflexivity].
      pose proof (fetch_from_lista_with_key rt topic language page_size
                    domain_string Hk) as E.
      cbv zeta in E. rewrite E.
      match goal with
      | |- context [status_code ?r =? 200] => destruct (status_code r =? 200)
      end; reflexivity.
  - destruct (Str.eqb source u"newsapi").
    + now rewrite fetch_from_newsapi_no_key.
    + destruct (Str.eqb source u"lista"); [|reflexivity].
      now rewrite fetch_from_lista_no_key.
Qed.

Lemma run_agent_requests (rt : Runtime) (args : Args) :
  requests (trace (run_agent rt args))
  = requests (trace (fetch_news rt (topic args) (language args)
                       (max_results args) (source args) (lista args))).
Proof.
  rewrite run_agent_trace, !requests_app.
  assert (H : requests
                match summarized rt args with
                | [] => [Print no_news_msg]
                | _ :: _ =>
                    flat_map (inference_of rt) (summarized rt args)
                    ++ Print banner
                       :: map Print (numbered rt 1 (summarized rt args))
                end = []).
  { destruct (summarized rt args) as [|art rest]; [reflexivity|].
    rewrite requests_app.
    assert (H1 : forall l, requests (flat_map (inference_of rt) l) = []).
    { induction l as [|a l IH]; cbn [flat_map]; [reflexivity|].
      rewrite requests_app, IH.
      destruct (inference_of_single rt a) as (mx & ->). reflexivity. }
    assert (H2 : forall l, requests (map Print l) = []).
    { induction l as [|a l IH]; [reflexivity | exact IH]. }
    rewrite H1. change (requests (Print banner :: ?l)) with (requests l).
    apply H2. }
  rewrite H, app_nil_r. reflexivity.
Qed.

(** X4: one call of [fetch_news], and one whole run of the agent, send at
    most one request; a request is sent only when a credential is configured,
    goes to the "everything" endpoint and carries the credential as a bearer
    token together with the topic, the language, the page size and the sort
    order "publishedAt". *)
Theorem at_most_one_request (rt : Runtime) (args : Args) :
  let sent := requests (trace (run_agent rt args)) in
  sent = requests (trace (fetch_news rt (topic args) (language args)
                            (max_results args) (source args) (lista args)))
  /\ (List.length sent <= 1)%nat
  /\ (forall r, In r sent ->
        Str.truthy (NEWSAPI_KEY rt) = true
        /\ req_url r = endpoint
        /\ req_headers r
           = [(u"Authorization", u"Bearer " ++ Str.or_empty (NEWSAPI_KEY rt))]
        /\ param u"q" r = Some (VStr (topic args))
        /\ param u"language" r = Some (VStr (language args))
        /\ param u"pageSize" r = Some (VInt (max_results args))
        /\ param u"sortBy" r = Some (VStr u"publishedAt")).
Proof.
  intros sent. subst sent. rewrite run_agent_requests.
  rewrite fetch_news_requests_cases.
  split; [reflexivity|].
  destruct (Str.truthy (NEWSAPI_KEY rt)); [|split; [simpl; lia | intros r []]].
  destruct (Str.eqb (source args) u"newsapi");
    [|destruct (Str.eqb (source args) u"lista")];
    (split; [simpl; lia|]); intros r Hr;
    try (destruct Hr as [<- | []]; repeat split; vm_compute; reflexivity).
  destruct Hr.
Qed.

Lemma at_most_one_request_witness :
  Str.truthy (NEWSAPI_KEY Run.rt_two) = true
  /\ req_url (newsapi_request Run.rt_two (topic Run.args_paper)
                (language Run.args_paper) (max_results Run.args_paper))
     = endpoint.
Proof.
  destruct (at_most_one_request Run.rt_two Run.args_paper) as (_ & _ & H).
  destruct (H (newsapi_request Run.rt_two (topic Run.args_paper)
                 (language Run.args_paper) (max_results Run.args_paper)))
    as (Hk & Hu & _).
  - vm_compute. left. reflexivity.
  - split; [exact Hk | exact Hu].
Defined.

(** ** Filtering: algebra of the filter *)

Lemma filter_twice (A : Type) (f : A -> bool) (l : list A) :
  filter f (filter f l) = filter f l.
Proof.
  induction l as [|x l IH]; simpl; [reflexivity|].
  destruct (f x) eqn:E; simpl; [rewrite E|]; now rewrite IH.
Qed.

(** X5: filtering is idempotent: filtering a filtered list again with the
    same article type changes nothing, for every article type. *)
Theorem filter_idempotent (rt : Runtime) (articles : list Article)
    (t : pystr) :
  filter_by_article_type rt (filter_by_article_type rt articles t) t
  = filter_by_article_type rt articles t.
Proof.
  rewrite !filter_by_article_type_filter. apply filter_twice.
Qed.

(** X6: the filter works article by article: the result on a concatenation
    is the concatenation of the results, every article of the result is an
    article of the input that the filter keeps, and the result is never
    longer than the input. *)
Theorem filter_distributes (rt : Runtime) (xs ys : list Article) (t : pystr) :
  filter_by_article_type rt (xs ++ ys) t
  = filter_by_article_type rt xs t ++ filter_by_article_type rt ys t
  /\ (forall art,
        In art (filter_by_article_type rt xs t)
        <-> In art xs /\ kept rt t art = true)
  /\ (List.length (filter_by_article_type rt xs t) <= List.length xs)%nat.
Proof.
  rewrite !filter_by_article_type_filter. split; [apply filter_app|]. split.
  - intros art. apply filter_In.
  - apply filter_length_le.
Qed.

Lemma filter_distributes_witness :
  In Run.wire_in_title
    (filter_by_article_type (Run.serving None [])
       [Run.wire; Run.wire_in_title] u"agency").
Proof.
  apply (proj1 (proj2 (filter_distributes (Run.serving None [])
                         [Run.wire; Run.wire_in_title] [] u"agency"))).
  split; [right; left; reflexivity | vm_compute; reflexivity].
Defined.

(** X7: for "divulgacion", "paper" and "opinion" an article is kept exactly
    when one keyword of the category occurs in its lower-cased title or in
    its lower-cased description (the empty string for a null or empty
    description): every keyword is looked for in both fields. *)
Theorem symmetric_categories (rt : Runtime) (art : Article) :
  kept rt u"divulgacion" art = keep_by_keywords rt divulgacion_keywords art
  /\ kept rt u"paper" art = keep_by_keywords rt paper_keywords art
  /\ kept rt u"opinion" art = keep_by_keywords rt opinion_keywords art.
Proof.
  unfold keep_by_keywords, divulgacion_keywords, paper_keywords,
    opinion_keywords.
  set (tl := lower rt (title art)). set (dl := desc_lower_of rt art).
  repeat split.
  - unfold kept, filter_step. fold tl dl.
    change (Str.eqb u"divulgacion" u"all") with false.
    change (Str.eqb u"divulgacion" u"any") with false.
    change (Str.eqb u"divulgacion" u"divulgacion") with true.
    cbv beta iota. cbn [orb existsb].
    destruct (Str.contains u"divulgación" tl);
      destruct (Str.contains u"divulgación" dl); reflexivity.
  - unfold kept, filter_step. fold tl dl.
    change (Str.eqb u"paper" u"all") with false.
    change (Str.eqb u"paper" u"any") with false.
    change (Str.eqb u"paper" u"divulgacion") with false.
    change (Str.eqb u"paper" u"paper") with true.
    cbv beta iota. cbn [orb existsb].
    destruct (Str.contains u"paper" tl); destruct (Str.contains u"study" tl);
      destruct (Str.contains u"investigación" tl);
      destruct (Str.contains u"paper" dl); destruct (Str.contains u"study" dl);
      destruct (Str.contains u"investigación" dl); reflexivity.
  - unfold kept, filter_step. fold tl dl.
    change (Str.eqb u"opinion" u"all") with false.
    change (Str.eqb u"opinion" u"any") with false.
    change (Str.eqb u"opinion" u"divulgacion") with false.
    change (Str.eqb u"opinion" u"paper") with false.
    change (Str.eqb u"opinion" u"opinion") with true.
    cbv beta iota. cbn [orb existsb].
    destruct (Str.contains u"opinión" tl); destruct (Str.contains u"column" tl);
      destruct (Str.contains u"op-ed" tl);
      destruct (Str.contains u"opinión" dl); destruct (Str.contains u"column" dl);
      destruct (Str.contains u"op-ed" dl); reflexivity.
Qed.

(** ** The length budget outside the defaults *)

(** X8: [max_len] bounds the budget only when it leaves room for the floor:
    the budget never exceeds the larger of [max_len] and [min_len + 5]; it
    lies between [min_len] and [max_len] when [min_len + 5 <= max_len]; and
    when [max_len < min_len] it is [min_len + 5], above [max_len], whatever
    the text.  The value returned is the answer of the summariser to that
    one call. *)
Theorem dynamic_summarize_bounds (rt : Runtime) (text : pystr)
    (min_len max_len : Z) :
  exists mx,
    dynamic_summarize rt text min_len max_len
    = (summarizer rt text mx min_len, [Summarize text mx min_len])
    /\ mx <= Z.max max_len (min_len + 5)
    /\ (min_len + 5 <= max_len -> min_len <= mx <= max_len)
    /\ (max_len < min_len -> mx = min_len + 5).
Proof.
  destruct (dynamic_summarize_trace rt text min_len max_len)
    as (mx & E & Hge & Hmx).
  exists mx. split; [exact E|]. cbv zeta in Hmx.
  set (m := Z.min max_len
              (int_mul_0_8 (Z.of_nat (List.length (Str.split text))))) in Hmx.
  assert (Hm : m <= max_len) by (unfold m; lia).
  destruct (m <? min_len) eqn:C.
  - apply Z.ltb_lt in C. subst mx. repeat split; lia.
  - apply Z.ltb_ge in C. subst mx. repeat split; lia.
Qed.

Lemma dynamic_summarize_bounds_witness :
  exists mx,
    dynamic_summarize (Run.serving None []) (Run.words 1000) 100 50
    = (summarizer (Run.serving None []) (Run.words 1000) mx 100,
       [Summarize (Run.words 1000) mx 100])
    /\ mx = 100 + 5.
Proof.
  destruct (dynamic_summarize_bounds (Run.serving None []) (Run.words 1000)
              100 50) as (mx & E & _ & _ & H).
  exists mx. split; [exact E|]. apply H. lia.
Defined.

(** X9: with the defaults the budget is 105 up to 124 words, the integer
    part of 0.8 times the word count (from 100 to 449) from 125 to 562
    words, and 450 from 563 words on; so a text of 125 to 131 words gets a
    smaller budget than any shorter text. *)
Theorem default_budget_thresholds (rt : Runtime) (text : pystr) :
  let word_count := Z.of_nat (List.length (Str.split text)) in
  let calls := inferences (trace (dynamic_summarize rt text 100 450)) in
  (word_count <= 124 -> calls = [(text, 105, 100)])
  /\ (125 <= word_count <= 562 ->
      calls = [(text, (8 * word_count) / 10, 100)]
      /\ 100 <= (8 * word_count) / 10 <= 449)
  /\ (125 <= word_count <= 131 -> exists mx,
        calls = [(text, mx, 100)] /\ mx < 105)
  /\ (563 <= word_count -> calls = [(text, 450, 100)]).
Proof.
  intros word_count calls.
  assert (Hwc : 0 <= word_count) by (unfold word_count; lia).
  assert (E : calls
              = [(text, (let m := Z.min 450 ((8 * word_count) / 10) in
                         if m <? 100 then 105 else m), 100)]).
  { unfold calls, dynamic_summarize, trace. cbn [snd inferences flat_map app].
    fold word_count. rewrite (int_mul_0_8_floor _ Hwc). reflexivity. }
  cbv zeta in E. rewrite E. clear E calls.
  assert (D := Z.div_mod (8 * word_count) 10 ltac:(lia)).
  assert (R := Z.mod_pos_bound (8 * word_count) 10 ltac:(lia)).
  set (q := (8 * word_count) / 10) in *.
  split; [|split; [|split]]; intros H.
  - assert (C : (Z.min 450 q <? 100) = true) by (apply Z.ltb_lt; lia).
    now rewrite C.
  - assert (C : (Z.min 450 q <? 100) = false) by (apply Z.ltb_ge; lia).
    rewrite C. split; [|lia]. do 2 f_equal. f_equal. lia.
  - exists q.
    assert (C : (Z.min 450 q <? 100) = false) by (apply Z.ltb_ge; lia).
    rewrite C. split; [do 2 f_equal; f_equal; lia | lia].
  - assert (C : (Z.min 450 q <? 100) = false) by (apply Z.ltb_ge; lia).
    rewrite C. do 2 f_equal. f_equal. lia.
Qed.

Lemma default_budget_thresholds_witness :
  inferences (trace (dynamic_summarize (Run.serving None []) (Run.words 124)
                       100 450))
  = [(Run.words 124, 105, 100)]
  /\ (exists mx,
        inferences (trace (dynamic_summarize (Run.serving None [])
                             (Run.words 125) 100 450))
        = [(Run.words 125, mx, 100)] /\ mx < 105)
  /\ inferences (trace (dynamic_summarize (Run.serving None []) (Run.words 563)
                          100 450))
     = [(Run.words 563, 450, 100)].
Proof.
  split; [|split].
  - apply (default_budget_thresholds (Run.serving None []) (Run.words 124)).
    vm_compute. discriminate.
  - apply (default_budget_thresholds (Run.serving None []) (Run.words 125)).
    vm_compute. split; discriminate.
  - apply (default_budget_thresholds (Run.serving None []) (Run.words 563)).
    vm_compute. discriminate.
Defined.

(** ** Whole runs *)

Lemma inference_of_default (rt : Runtime) (art : Article) :
  exists mx,
    inference_of rt art = [Summarize (text_to_summarize art) mx 100]
    /\ 100 <= mx <= 450.
Proof.
  unfold inference_of.
  destruct (dynamic_summarize_trace rt (text_to_summarize art) 100 450)
    as (mx & E & Hge & Hmx).
  exists mx. rewrite E. split; [reflexivity|]. cbv zeta in Hmx.
  destruct (Z.min 450 _ <? 100) eqn:C in Hmx.
  - lia.
  - apply Z.ltb_ge in C. lia.
Qed.

Lemma run_agent_inferences (rt : Runtime) (args : Args) :
  inferences (trace (run_agent rt args))
  = inferences (flat_map (inference_of rt) (summarized rt args)).
Proof.
  rewrite run_agent_trace, !inferences_app, fetch_news_no_inference.
  destruct (summarized rt args) as [|art rest] eqn:E; [reflexivity|].
  cbv beta iota.
  rewrite inferences_app, !inferences_print, inferences_prints, app_nil_r.
  reflexivity.
Qed.

Lemma split_from_words (cur s : pystr) :
  cur <> [] \/ (exists c, In c s /\ Str.isspace c = false) ->
  Str.split_from cur s <> [].
Proof.
  revert cur. induction s as [|c s IH]; intros cur H; simpl.
  - destruct H as [H | (c & [] & _)]. destruct cur; [contradiction | discriminate].
  - destruct (Str.isspace c) eqn:Hc.
    + destruct cur as [|x cur]; [|discriminate].
      apply IH. right. destruct H as [H | (c0 & [-> | Hin] & Hs)];
        [contradiction | congruence | exists c0; auto].
    + apply IH. left. discriminate.
Qed.

Lemma text_to_summarize_words (art : Article) :
  text_to_summarize art <> []
  /\ (1 <= List.length (Str.split (text_to_summarize art)))%nat.
Proof.
  assert (Hin : In 46%N (text_to_summarize art)).
  { unfold text_to_summarize. apply in_or_app. right.
    apply in_or_app. left. vm_compute. left. reflexivity. }
  split.
  - intros E. rewrite E in Hin. destruct Hin.
  - assert (H : Str.split (text_to_summarize art) <> []).
    { apply split_from_words. right. exists 46%N. split; [exact Hin|reflexivity]. }
    destruct (Str.split (text_to_summarize art)); [contradiction | simpl; lia].
Qed.

(** X10: a run makes exactly one inference call per article the filter
    keeps, each with [min_length = 100] and a [max_length] between 100 and
    450, and never on an empty text: the text always holds at least one
    word, the full stop that follows the title. *)
Theorem run_agent_inference_calls (rt : Runtime) (args : Args) :
  List.length (inferences (trace (run_agent rt args)))
  = List.length (summarized rt args)
  /\ Forall (fun c : pystr * Z * Z =>
               let '(text, max_length, min_length) := c in
               min_length = 100 /\ 100 <= max_length <= 450
               /\ text <> []
               /\ (1 <= List.length (Str.split text))%nat)
       (inferences (trace (run_agent rt args))).
Proof.
  rewrite run_agent_inferences.
  induction (summarized rt args) as [|art rest [IHl IHf]];
    cbn [flat_map]; [split; [reflexivity | constructor]|].
  destruct (inference_of_default rt art) as (mx & E & Hmx).
  rewrite E, inferences_app. cbn [inferences flat_map app List.length].
  fold (inferences (flat_map (inference_of rt) rest)).
  split; [now rewrite IHl|].
  constructor; [|exact IHf].
  destruct (text_to_summarize_words art) as [H1 H2]. repeat split; auto; lia.
Qed.

(** X11: without a credential, a run in either mode prints its two header
    lines, the missing-key message and the message of the empty result, and
    does nothing else: no request, no inference. *)
Theorem run_without_credential (rt : Runtime) (args : Args) :
  Str.truthy (NEWSAPI_KEY rt) = false ->
  source args = u"newsapi" \/ source args = u"lista" ->
  run_agent rt args
  = (tt, [Print (header1 args); Print (header2 args);
          Print missing_key_msg; Print no_news_msg]).
Proof.
  intros Hk Hs.
  assert (F : fetch_news rt (topic args) (language args) (max_results args)
                (source args) (lista args) = ([], [Print missing_key_msg])).
  { destruct Hs as [-> | ->].
    - rewrite fetch_news_newsapi. now apply fetch_from_newsapi_no_key.
    - rewrite fetch_news_lista. now apply fetch_from_lista_no_key. }
  assert (S : summarized rt args = []).
  { unfold summarized, fetched. rewrite F. apply filter_by_article_type_nil. }
  pose proof (run_agent_quiet rt args S) as T. rewrite F in T.
  destruct (run_agent rt args) as [[] tr]. unfold trace in T. cbn [snd] in T.
  rewrite T. reflexivity.
Qed.

Lemma run_without_credential_witness :
  run_agent (Run.serving None [Run.study]) Run.args_paper
  = (tt, [Print (header1 Run.args_paper); Print (header2 Run.args_paper);
          Print missing_key_msg; Print no_news_msg]).
Proof.
  apply (run_without_credential (Run.serving None [Run.study]) Run.args_paper).
  - reflexivity.
  - left. reflexivity.
Defined.

(** X12: when the provider answers the unrestricted request with a status
    other than 200, the run prints the error line with the body of the
    answer and then the message of the empty result; no article is
    summarised. *)
Theorem run_with_provider_error (rt : Runtime) (args : Args) :
  Str.truthy (NEWSAPI_KEY rt) = true ->
  source args = u"newsapi" ->
  let req := newsapi_request rt (topic args) (language args)
               (max_results args) in
  status_code (requests_get rt req) <> 200 ->
  run_agent rt args
  = (tt, [Print (header1 args); Print (header2 args);
          Get req;
          Print (u"Error al obtener noticias de NewsAPI:" ++ u" "
                 ++ text (requests_get rt req));
          Print no_news_msg]).
Proof.
  intros Hk Hs req Hst.
  assert (F : fetch_news rt (topic args) (language args) (max_results args)
                (source args) (lista args)
              = ([], [Get req;
                      Print (u"Error al obtener noticias de NewsAPI:" ++ u" "
                             ++ text (requests_get rt req))])).
  { rewrite Hs, fetch_news_newsapi.
    pose proof (fetch_from_newsapi_with_key rt (topic args) (language args)
                  (max_results args) Hk) as E.
    cbv zeta in E. fold req in E. apply Z.eqb_neq in Hst.
    now rewrite Hst in E. }
  assert (S : summarized rt args = []).
  { unfold summarized, fetched. rewrite F. apply filter_by_article_type_nil. }
  pose proof (run_agent_quiet rt args S) as T. rewrite F in T.
  destruct (run_agent rt args) as [[] tr]. unfold trace in T. cbn [snd] in T.
  rewrite T. reflexivity.
Qed.

Lemma run_with_provider_error_witness :
  run_agent (Run.failing (Some u"clave") u"rate limited") Run.args_paper
  = (tt, [Print (header1 Run.args_paper); Print (header2 Run.args_paper);
          Get (newsapi_request (Run.failing (Some u"clave") u"rate limited")
                 (topic Run.args_paper) (language Run.args_paper)
                 (max_results Run.args_paper));
          Print (u"Error al obtener noticias de NewsAPI:" ++ u" "
                 ++ text (requests_get
                            (Run.failing (Some u"clave") u"rate limited")
                            (newsapi_request
                               (Run.failing (Some u"clave") u"rate limited")
                               (topic Run.args_paper) (language Run.args_paper)
                               (max_results Run.args_paper))));
          Print no_news_msg]).
Proof.
  apply (run_with_provider_error
           (Run.failing (Some u"clave") u"rate limited") Run.args_paper).
  - reflexivity.
  - reflexivity.
  - vm_compute. discriminate.
Defined.

(** X13: in the unrestricted mode the [--lista] argument has no effect: a
    run with source "newsapi" is the same whatever domain string is given. *)
Theorem lista_ignored_by_newsapi (rt : Runtime) (args : Args)
    (l : option pystr) :
  source args = u"newsapi" ->
  run_agent rt (with_lista args l) = run_agent rt args.
Proof.
  intros Hs. unfold run_agent, header1, header2, with_lista.
  cbn [topic language max_results source article_type lista].
  rewrite Hs, !fetch_news_newsapi. reflexivity.
Qed.

Lemma lista_ignored_by_newsapi_witness :
  run_agent Run.rt_two (with_lista Run.args_paper (Some u"elpais.com"))
  = run_agent Run.rt_two Run.args_paper.
Proof.
  apply (lista_ignored_by_newsapi Run.rt_two Run.args_paper
           (Some u"elpais.com")).
  reflexivity.
Defined.

(** ** Matching ignores the case of ASCII text *)

Lemma lower_ascii (rt : Runtime) (s : pystr) :
  Str.isascii s = true -> lower rt s = map Str.ascii_lower s.
Proof. intros H. unfold lower. now rewrite H. Qed.

(** X14: the filter compares lower-cased text: two articles whose ASCII
    titles differ only in the case of their letters, with the same
    description, are both kept or both dropped, whatever the article type
    (and whatever their urls). *)
Theorem filter_ignores_ascii_case (rt : Runtime) (t : pystr)
    (title1 title2 : pystr) (d : option pystr) (url1 url2 : pystr) :
  Str.isascii title1 = true ->
  Str.isascii title2 = true ->
  map Str.ascii_lower title1 = map Str.ascii_lower title2 ->
  kept rt t (mkArticle title1 d url1) = kept rt t (mkArticle title2 d url2).
Proof.
  intros H1 H2 E.
  assert (L : lower rt title1 = lower rt title2)
    by (rewrite !lower_ascii by assumption; exact E).
  unfold kept, filter_step, desc_lower_of. cbn [title description].
  rewrite L.
  repeat match goal with
         | |- context [if ?c then _ else _] =>
             match type of c with bool => destruct c end
         end;
    reflexivity.
Qed.

Lemma filter_ignores_ascii_case_witness :
  kept (Run.serving None []) u"agency"
    (mkArticle u"REUTERS: lluvias" None u"http://example.org/5")
  = kept (Run.serving None []) u"agency"
      (mkArticle u"Reuters: Lluvias" None u"http://example.org/6").
Proof.
  apply (filter_ignores_ascii_case (Run.serving None []) u"agency"
           u"REUTERS: lluvias" u"Reuters: Lluvias" None
           u"http://example.org/5" u"http://example.org/6");
    vm_compute; reflexivity.
Defined.
